(** * Retries with exponential backoff: [get_with_backoff]

    A shallow embedding of the notebook "Implementing Retries and Timeouts"
    (cells "Retries" and "Exponential Backoff with Jitter") and the
    properties of its retry loops.

    Conventions of the embedding.
    - Python [int] is [Z]; Python [float] is an exact rational [Q]
      (rounding of the floating-point operations is not modelled).
    - The outside world (the HTTP server and the random generator) is an
      oracle: the answer to the k-th network call still to come and the value
      of the k-th call to [random.random()] still to come.
    - Everything the code does to the outside world is logged as an [event],
      in program order. *)

From Stdlib Require Import ZArith QArith String List Bool Lia Lqa Sorted.
Import ListNotations.

Local Open Scope string_scope.
Local Open Scope list_scope.
Local Open Scope Z_scope.

(** ** The [requests] objects the code touches *)

Module Requests.

(** [requests.Response]: the fields the notebook reads. *)
Record Response : Type := mkResponse {
  status_code : Z;
  text : string
}.

(** Exceptions raised by [requests.get] itself (no response was received).
    None of them is a subclass of [requests.exceptions.HTTPError]. *)
Inductive RequestException : Type :=
| ConnectTimeout
| ReadTimeout
| ConnectionError.

(** What one call of [requests.get] gives. *)
Inductive outcome : Type :=
| Responded (r : Response)
| Failed (e : RequestException).

(** The test of [Response.raise_for_status]: an [HTTPError] is raised for
    the statuses 400..599 and for no other. *)
Definition is_error_status (s : Z) : bool := (400 <=? s) && (s <? 600).

End Requests.
Import Requests.

(** ** Exceptions, messages, events *)

(** The exceptions that travel through the code. [RuntimeError] carries its
    message and its [__context__] (the exception being handled when it was
    raised, if any). *)
#[warnings="-register-all"]
Inductive exn : Type :=
| HTTPError (response : Response)
| RequestError (e : RequestException)
| RuntimeError (msg : string) (context : option exn).

(** The lines written by [print], kept structured (the number formatting of
    the f-strings is not modelled). *)
Inductive message : Type :=
| MsgAttempt (attempt max_retries : Z)      (* "Attempt {attempt}/{max_retries}..." *)
| MsgSucceeded (status : Z)                 (* "Succeeded with status {status}" *)
| MsgClientError (status : Z)               (* "Failed with client error code {status}. Skipping retry." *)
| MsgServerError (status : Z)               (* "Failed with server error code {status}." *)
| MsgServerErrorRetrying (status : Z) (wait : Q)
                                            (* "  Failed with server error code {status}. Retrying in {wait:.2f}s" *)
| MsgWaiting (delay : Z)                    (* "Waiting {delay}s before retry..." *)
| MsgAllFailed (max_retries : Z).           (* "All {max_retries} attempts failed!" *)

Inductive event : Type :=
| Iter (attempt delay : Z)       (* ghost: head of a loop iteration, with the locals *)
| Print (m : message)            (* print(...) *)
| Get (url : string) (timeout : Z)   (* requests.get(url, timeout=...) *)
| Uniform (a b : Q)              (* random.uniform(a, b) *)
| Sleep (secs : Q).              (* time.sleep(secs) *)

(** ** The world and the effect monad *)

Record world : Type := mkWorld {
  responses : nat -> outcome;   (* outcome of the k-th network call to come *)
  randoms : nat -> Q            (* value of the k-th random.random() to come *)
}.

Definition next_response (w : world) : world :=
  mkWorld (fun k => responses w (S k)) (randoms w).

Definition next_random (w : world) : world :=
  mkWorld (responses w) (fun k => randoms w (S k)).

Inductive result (A : Type) : Type :=
| Ok (a : A)
| Raised (e : exn).
Arguments Ok {A} a.
Arguments Raised {A} e.

(** A computation reads and advances the world, logs events, and either
    gives a value or raises. The log survives a raise. *)
Definition M (A : Type) : Type := world -> list event * world * result A.

Definition ret {A} (a : A) : M A := fun w => ([], w, Ok a).

Definition raise {A} (e : exn) : M A := fun w => ([], w, Raised e).

Definition bind {A B} (m : M A) (k : A -> M B) : M B :=
  fun w =>
    match m w with
    | (t1, w1, Ok a) => let '(t2, w2, r) := k a w1 in (t1 ++ t2, w2, r)
    | (t1, w1, Raised e) => (t1, w1, Raised e)
    end.

(** [try: m except ...: handler]; the handler re-raises what it does not
    catch. *)
Definition try_except {A} (m : M A) (handler : exn -> M A) : M A :=
  fun w =>
    match m w with
    | (t1, w1, Ok a) => (t1, w1, Ok a)
    | (t1, w1, Raised e) => let '(t2, w2, r) := handler e w1 in (t1 ++ t2, w2, r)
    end.

Declare Scope py_scope.
Delimit Scope py_scope with py.
Notation "x <- m ;; k" := (bind m (fun x => k))
  (at level 61, m at next level, right associativity) : py_scope.
Notation "m ;; k" := (bind m (fun _ => k))
  (at level 61, right associativity) : py_scope.
Local Open Scope py_scope.

Definition log (e : event) : M unit := fun w => ([e], w, Ok tt).

Definition print (m : message) : M unit := log (Print m).

Definition sleep (secs : Q) : M unit := log (Sleep secs).

(** [requests.get(url, timeout=t)]: one network call. *)
Definition requests_get (url : string) (timeout : Z) : M Response :=
  fun w =>
    match responses w 0%nat with
    | Responded r => ([Get url timeout], next_response w, Ok r)
    | Failed e => ([Get url timeout], next_response w, Raised (RequestError e))
    end.

(** [res.raise_for_status()]. *)
Definition raise_for_status (res : Response) : M unit :=
  if is_error_status (status_code res) then raise (HTTPError res) else ret tt.

(** [random.uniform(a, b)], which is [a + (b - a) * random.random()]. *)
Definition random_uniform (a b : Q) : M Q :=
  fun w => ([Uniform a b], next_random w, Ok (a + (b - a) * randoms w 0%nat)%Q).

(** [range(start, stop)]. *)
Definition range (start stop : Z) : list Z :=
  map (fun i => start + Z.of_nat i) (seq 0 (Z.to_nat (stop - start))).

(** ** Cell "Exponential Backoff with Jitter" *)

(** What one iteration of the [for] loop hands to the loop: [return res]
    leaves the function, otherwise the loop goes on with the new [delay]. *)
Inductive control : Type :=
| Return (res : Response)
| Next (delay : Z).

Definition client_error_msg : string := "Client error! Please review request.".

Definition all_failed_msg (url : string) : string :=
  ("All retries to query " ++ url ++ " failed!")%string.

(** The body of the [for] loop of [get_with_backoff]. *)
Definition attempt_body (url : string) (max_retries attempt delay : Z) : M control :=
  log (Iter attempt delay) ;;
  print (MsgAttempt attempt max_retries) ;;
  try_except
    (res <- requests_get url 10 ;;
     raise_for_status res ;;
     print (MsgSucceeded (status_code res)) ;;
     ret (Return res))
    (fun err =>
       match err with
       | HTTPError response =>
           if status_code response <? 500 then
             print (MsgClientError (status_code response)) ;;
             raise (RuntimeError client_error_msg (Some err))
           else
             jitter <- random_uniform (-(1 # 10) * inject_Z delay) ((1 # 10) * inject_Z delay) ;;
             let wait := (inject_Z (Z.min (delay * 2) 30) + jitter)%Q in
             print (MsgServerErrorRetrying (status_code response) wait) ;;
             sleep wait ;;
             ret (Next (Z.min (delay * 2) 30))
       | _ => raise err
       end).

(** [for attempt in attempts: ...] followed by the final [raise]. *)
Fixpoint for_attempts (url : string) (max_retries : Z) (attempts : list Z) (delay : Z)
  : M Response :=
  match attempts with
  | [] => raise (RuntimeError (all_failed_msg url) None)
  | attempt :: rest =>
      c <- attempt_body url max_retries attempt delay ;;
      match c with
      | Return res => ret res
      | Next delay' => for_attempts url max_retries rest delay'
      end
  end.

Definition get_with_backoff (url : string) (max_retries : Z) : M Response :=
  for_attempts url max_retries (range 1 (max_retries + 1)) 1.

(** ** Cell "Retries": the simple retry loop with a fixed delay *)

(** How one iteration of the simple loop ends: [break], or fall through to
    the end of the body. *)
Inductive simple_control : Type :=
| Break
| FallThrough.

Definition simple_body (url : string) (max_retries delay attempt : Z) : M simple_control :=
  log (Iter attempt delay) ;;
  print (MsgAttempt attempt max_retries) ;;
  c <- try_except
         (res <- requests_get url 10 ;;
          raise_for_status res ;;
          print (MsgSucceeded (status_code res)) ;;
          ret Break)
         (fun err =>
            match err with
            | HTTPError response =>
                if status_code response <? 500 then
                  print (MsgClientError (status_code response)) ;;
                  ret Break
                else
                  print (MsgServerError (status_code response)) ;;
                  ret FallThrough
            | _ => raise err
            end) ;;
  match c with
  | Break => ret Break
  | FallThrough =>
      (if attempt <? max_retries then
         print (MsgWaiting delay) ;;
         sleep (inject_Z delay)
       else ret tt) ;;
      ret FallThrough
  end.

(** [for ... else]: the [else] branch runs when the loop ends without
    [break]. *)
Fixpoint simple_for (url : string) (max_retries delay : Z) (attempts : list Z) : M unit :=
  match attempts with
  | [] => print (MsgAllFailed max_retries)
  | attempt :: rest =>
      c <- simple_body url max_retries delay attempt ;;
      match c with
      | Break => ret tt
      | FallThrough => simple_for url max_retries delay rest
      end
  end.

Definition simple_retry_loop (url : string) (max_retries delay : Z) : M unit :=
  simple_for url max_retries delay (range 1 (max_retries + 1)).

(** ** Observations on a run *)

Definition trace_of {A} (x : list event * world * result A) : list event := fst (fst x).
Definition world_of {A} (x : list event * world * result A) : world := snd (fst x).
Definition result_of {A} (x : list event * world * result A) : result A := snd x.

(** Number of network calls (attempts) in a log. *)
Fixpoint attempts_made (t : list event) : nat :=
  match t with
  | [] => 0
  | Get _ _ :: t' => S (attempts_made t')
  | _ :: t' => attempts_made t'
  end.

(** The durations slept, in order. *)
Fixpoint sleeps (t : list event) : list Q :=
  match t with
  | [] => []
  | Sleep s :: t' => s :: sleeps t'
  | _ :: t' => sleeps t'
  end.

(** The loop iterations entered: the values of [attempt] and [delay]. *)
Fixpoint iterations (t : list event) : list (Z * Z) :=
  match t with
  | [] => []
  | Iter a d :: t' => (a, d) :: iterations t'
  | _ :: t' => iterations t'
  end.

(** Each sleep with the value [delay] had in the iteration that slept
    ([delay] is the value at the head of the latest iteration; [d0] stands
    for it before the first one). *)
Fixpoint waits (d0 : Z) (t : list event) : list (Z * Q) :=
  match t with
  | [] => []
  | Iter _ d :: t' => waits d t'
  | Sleep s :: t' => (d0, s) :: waits d0 t'
  | _ :: t' => waits d0 t'
  end.

(** Example worlds. *)
Definition always (status : Z) (u : Q) : world :=
  mkWorld (fun _ => Responded (mkResponse status "")) (fun _ => u).

Definition flaky (k : nat) (bad good : Z) (u : Q) : world :=
  mkWorld (fun i => Responded (mkResponse (if (i <? k)%nat then bad else good) ""))
          (fun _ => u).

Definition timing_out (u : Q) : world :=
  mkWorld (fun _ => Failed ReadTimeout) (fun _ => u).

(** The first [k] calls time out, the following ones answer [good]. *)
Definition timeout_then (k : nat) (good : Z) (u : Q) : world :=
  mkWorld (fun i => if (i <? k)%nat then Failed ReadTimeout
                    else Responded (mkResponse good ""))
          (fun _ => u).

(** The run captured in the notebook: every call answers 503; the values of
    [random.random()] are those that give the waits it printed. *)
Definition notebook_world : world :=
  mkWorld (fun _ => Responded (mkResponse 503 ""))
          (fun k => nth k [45 # 100; 85 # 100; 2625 # 10000; 9875 # 10000]%Q 0%Q).

(** ** How the code sorts the outcomes of a call

    Read off the branches of the loop body: no [HTTPError] (status outside
    400..599) is a success, an [HTTPError] below 500 is a client error, an
    [HTTPError] from 500 on is a server error. *)

Definition success (o : outcome) (r : Response) : Prop :=
  o = Responded r /\ (status_code r < 400 \/ 600 <= status_code r).

Definition client_error (o : outcome) : Prop :=
  exists r, o = Responded r /\ 400 <= status_code r < 500.

Definition server_error (o : outcome) : Prop :=
  exists r, o = Responded r /\ 500 <= status_code r < 600.

(** The wait of an iteration whose [delay] is [d] when [random.random()]
    gives [u]. *)
Definition jitter_of (d : Z) (u : Q) : Q :=
  (-(1 # 10) * inject_Z d + ((1 # 10) * inject_Z d - -(1 # 10) * inject_Z d) * u)%Q.

Definition wait_of (d : Z) (u : Q) : Q :=
  (inject_Z (Z.min (d * 2) 30) + jitter_of d u)%Q.

(** [wait] is within 10% of [base], on either side. *)
Definition within_ten_percent (base wait : Q) : Prop :=
  ((9 # 10) * base <= wait <= (11 # 10) * base)%Q.

(** [random.random()] gives values between 0 and 1. *)
Definition unit_randoms (w : world) : Prop :=
  forall k, (0 <= randoms w k <= 1)%Q.

(** The events logged after the last network call (the whole log when there
    is no call). *)
Fixpoint since_last_get (t : list event) : list event :=
  match t with
  | [] => []
  | e :: t' =>
      if (0 <? attempts_made t')%nat then since_last_get t'
      else match e with Get _ _ => t' | _ => e :: t' end
  end.

(** The caller can read the cause of the last failure off the error raised
    when the budget is exhausted: some function of the error gives the status
    of the final attempt, in every run whose attempts all end in a server
    error. *)
Definition last_cause_recoverable : Prop :=
  exists recover : exn -> Z,
    forall url max_retries w r e,
      1 <= max_retries ->
      (forall i, server_error (responses w i)) ->
      responses w (Z.to_nat (max_retries - 1)) = Responded r ->
      result_of (get_with_backoff url max_retries w) = Raised e ->
      recover e = status_code r.

(** What one iteration of [get_with_backoff] does, outcome by outcome of its
    network call: the events it logs, the world it leaves and what it hands
    to the loop. *)
Inductive body_run (url : string) (max_retries attempt delay : Z) (w : world)
  : list event * world * result control -> Prop :=
| run_success r :
    responses w 0%nat = Responded r ->
    is_error_status (status_code r) = false ->
    body_run url max_retries attempt delay w
      ([Iter attempt delay; Print (MsgAttempt attempt max_retries); Get url 10;
        Print (MsgSucceeded (status_code r))],
       next_response w, Ok (Return r))
| run_client_error r :
    responses w 0%nat = Responded r ->
    is_error_status (status_code r) = true ->
    status_code r < 500 ->
    body_run url max_retries attempt delay w
      ([Iter attempt delay; Print (MsgAttempt attempt max_retries); Get url 10;
        Print (MsgClientError (status_code r))],
       next_response w, Raised (RuntimeError client_error_msg (Some (HTTPError r))))
| run_server_error r :
    responses w 0%nat = Responded r ->
    is_error_status (status_code r) = true ->
    500 <= status_code r ->
    body_run url max_retries attempt delay w
      ([Iter attempt delay; Print (MsgAttempt attempt max_retries); Get url 10;
        Uniform (-(1 # 10) * inject_Z delay) ((1 # 10) * inject_Z delay);
        Print (MsgServerErrorRetrying (status_code r) (wait_of delay (randoms w 0%nat)));
        Sleep (wait_of delay (randoms w 0%nat))],
       next_random (next_response w), Ok (Next (Z.min (delay * 2) 30)))
| run_request_error e :
    responses w 0%nat = Failed e ->
    body_run url max_retries attempt delay w
      ([Iter attempt delay; Print (MsgAttempt attempt max_retries); Get url 10],
       next_response w, Raised (RequestError e)).

(** ** The call that decides a run

    Both loops go on to a further attempt in one branch only: the call ended
    in an [HTTPError] whose status is not below 500. *)
Definition is_server_error (o : outcome) : bool :=
  match o with
  | Responded r => is_error_status (status_code r) && negb (status_code r <? 500)
  | Failed _ => false
  end.

(** Among the next [budget] calls, how many end in a server error before one
    does not. *)
Fixpoint leading_server_errors (budget : nat) (rs : nat -> outcome) : nat :=
  match budget with
  | O => O
  | S budget' =>
      if is_server_error (rs 0%nat)
      then S (leading_server_errors budget' (fun k => rs (S k)))
      else O
  end.

(** What [get_with_backoff] ends with, read off the calls alone: the error of
    the final [raise] when the whole budget ends in server errors, and
    otherwise what the first other call leads to. *)
Definition backoff_result (url : string) (budget : nat) (rs : nat -> outcome)
  : result Response :=
  let k := leading_server_errors budget rs in
  if (k =? budget)%nat then Raised (RuntimeError (all_failed_msg url) None)
  else match rs k with
       | Responded r =>
           if is_error_status (status_code r)
           then Raised (RuntimeError client_error_msg (Some (HTTPError r)))
           else Ok r
       | Failed e => Raised (RequestError e)
       end.

(** The same for the simple retry loop, which raises nothing of its own. *)
Definition simple_result (budget : nat) (rs : nat -> outcome) : result unit :=
  let k := leading_server_errors budget rs in
  if (k =? budget)%nat then Ok tt
  else match rs k with
       | Responded _ => Ok tt
       | Failed e => Raised (RequestError e)
       end.

(** The network calls of a log, in order. *)
Fixpoint gets (t : list event) : list (string * Z) :=
  match t with
  | [] => []
  | Get url timeout :: t' => (url, timeout) :: gets t'
  | _ :: t' => gets t'
  end.

(** The time spent sleeping. *)
Definition total_sleep (t : list event) : Q := fold_right Qplus 0%Q (sleeps t).


(** The ways [get_with_backoff] ends: a returned response is one for which
    [raise_for_status] does not raise; a [RuntimeError] is the final one
    (no context) or the client error one (its context the [HTTPError], of
    status 400..499); an [HTTPError] itself never leaves the function. *)
Definition ends_well (url : string) (res : result Response) : Prop :=
  match res with
  | Ok r => status_code r < 400 \/ 600 <= status_code r
  | Raised (HTTPError _) => False
  | Raised (RequestError _) => True
  | Raised (RuntimeError msg context) =>
      (msg = all_failed_msg url /\ context = None) \/
      (msg = client_error_msg /\
       exists r, context = Some (HTTPError r) /\ 400 <= status_code r < 500)
  end.

(** ** The cell that calls [get_with_backoff] *)

Definition HTTPBIN_ENDPOINT : string := "https://httpbin.org".

(** What a top-level cell logs: the events of the call it makes and the
    lines it prints itself. *)
Inductive cell_event : Type :=
| Called (e : event)
| PrintLine (line : string).

(** [try: res = get_with_backoff(f"{HTTPBIN_ENDPOINT}/status/503", max_retries=4)]
    [except RuntimeError as e: print(e)]; [print(e)] writes the message of
    the error. *)
Definition backoff_cell (w : world) : list cell_event * world * result unit :=
  match get_with_backoff (HTTPBIN_ENDPOINT ++ "/status/503")%string 4 w with
  | (t, w1, Ok res) => (map Called t, w1, Ok tt)
  | (t, w1, Raised (RuntimeError msg _)) => (map Called t ++ [PrintLine msg], w1, Ok tt)
  | (t, w1, Raised e) => (map Called t, w1, Raised e)
  end.

(** The lines a cell prints itself. *)
Fixpoint cell_lines (t : list cell_event) : list string :=
  match t with
  | [] => []
  | PrintLine line :: t' => line :: cell_lines t'
  | Called _ :: t' => cell_lines t'
  end.

(** * Proofs *)

(** ** [range] *)

Lemma range_nil start stop : stop <= start -> range start stop = [].
Proof.
  intros H. unfold range.
  replace (Z.to_nat (stop - start)) with 0%nat by lia. reflexivity.
Qed.

Lemma range_cons start stop :
  start < stop -> range start stop = start :: range (start + 1) stop.
Proof.
  intros H. unfold range.
  replace (Z.to_nat (stop - start)) with (S (Z.to_nat (stop - (start + 1)))) by lia.
  cbn [seq map]. f_equal; [lia|].
  rewrite <- seq_shift, map_map.
  apply map_ext. intros i. lia.
Qed.

Lemma range_length start stop : length (range start stop) = Z.to_nat (stop - start).
Proof. unfold range. now rewrite length_map, length_seq. Qed.

Lemma in_range start stop x : In x (range start stop) -> start <= x < stop.
Proof.
  unfold range. rewrite in_map_iff. intros (i & <- & Hi).
  apply in_seq in Hi. lia.
Qed.

(** ** The observations distribute over concatenation *)

Lemma attempts_made_app t1 t2 :
  attempts_made (t1 ++ t2) = (attempts_made t1 + attempts_made t2)%nat.
Proof.
  induction t1 as [|e t1 IH]; [reflexivity|].
  destruct e; cbn; rewrite IH; reflexivity.
Qed.

Lemma sleeps_app t1 t2 : sleeps (t1 ++ t2) = sleeps t1 ++ sleeps t2.
Proof.
  induction t1 as [|e t1 IH]; [reflexivity|].
  destruct e; cbn; rewrite IH; reflexivity.
Qed.

Lemma iterations_app t1 t2 : iterations (t1 ++ t2) = iterations t1 ++ iterations t2.
Proof.
  induction t1 as [|e t1 IH]; [reflexivity|].
  destruct e; cbn; rewrite IH; reflexivity.
Qed.

(** [waits] lists every sleep of the log, each one once and in order. *)
Lemma waits_sleeps t : forall d0, map snd (waits d0 t) = sleeps t.
Proof.
  induction t as [|e t IH]; intros d0; [reflexivity|].
  destruct e; cbn; now rewrite IH.
Qed.

(** ** One iteration of [get_with_backoff], outcome by outcome *)

Lemma attempt_body_run url max_retries attempt delay w :
  body_run url max_retries attempt delay w (attempt_body url max_retries attempt delay w).
Proof.
  unfold attempt_body, bind, try_except, print, sleep, log, requests_get,
    raise_for_status, random_uniform, raise, ret.
  destruct (responses w 0%nat) as [r|e] eqn:Hr; cbn.
  - destruct (is_error_status (status_code r)) eqn:Hs; cbn.
    + destruct (Z.ltb_spec (status_code r) 500) as [Hlt|Hge]; cbn.
      * now apply run_client_error.
      * now apply run_server_error.
    + now apply run_success.
  - now apply run_request_error.
Qed.

Lemma is_error_status_true s : is_error_status s = true <-> 400 <= s < 600.
Proof. unfold is_error_status. rewrite andb_true_iff, Z.leb_le, Z.ltb_lt. tauto. Qed.

Lemma is_error_status_false s : is_error_status s = false <-> s < 400 \/ 600 <= s.
Proof. unfold is_error_status. rewrite andb_false_iff, Z.leb_gt, Z.ltb_ge. tauto. Qed.

(** The iteration, when the outcome of the call is known. *)

Lemma attempt_body_server_error url max_retries attempt delay w :
  server_error (responses w 0%nat) ->
  exists r, responses w 0%nat = Responded r /\
  attempt_body url max_retries attempt delay w =
    ([Iter attempt delay; Print (MsgAttempt attempt max_retries); Get url 10;
      Uniform (-(1 # 10) * inject_Z delay) ((1 # 10) * inject_Z delay);
      Print (MsgServerErrorRetrying (status_code r) (wait_of delay (randoms w 0%nat)));
      Sleep (wait_of delay (randoms w 0%nat))],
     next_random (next_response w), Ok (Next (Z.min (delay * 2) 30))).
Proof.
  intros (r & Hr & Hs). exists r. split; [exact Hr|].
  destruct (attempt_body_run url max_retries attempt delay w) as [r' H1 H2|r' H1 H2 H3|r' H1 H2 H3|e H1];
    rewrite Hr in H1; try discriminate; injection H1 as <-.
  - apply is_error_status_false in H2. lia.
  - lia.
  - reflexivity.
Qed.

Lemma attempt_body_client_error url max_retries attempt delay w :
  client_error (responses w 0%nat) ->
  exists r, responses w 0%nat = Responded r /\
  attempt_body url max_retries attempt delay w =
    ([Iter attempt delay; Print (MsgAttempt attempt max_retries); Get url 10;
      Print (MsgClientError (status_code r))],
     next_response w, Raised (RuntimeError client_error_msg (Some (HTTPError r)))).
Proof.
  intros (r & Hr & Hs). exists r. split; [exact Hr|].
  destruct (attempt_body_run url max_retries attempt delay w) as [r' H1 H2|r' H1 H2 H3|r' H1 H2 H3|e H1];
    rewrite Hr in H1; try discriminate; injection H1 as <-.
  - apply is_error_status_false in H2. lia.
  - reflexivity.
  - lia.
Qed.

Lemma attempt_body_success url max_retries attempt delay w r :
  success (responses w 0%nat) r ->
  attempt_body url max_retries attempt delay w =
    ([Iter attempt delay; Print (MsgAttempt attempt max_retries); Get url 10;
      Print (MsgSucceeded (status_code r))],
     next_response w, Ok (Return r)).
Proof.
  intros (Hr & Hs).
  destruct (attempt_body_run url max_retries attempt delay w) as [r' H1 H2|r' H1 H2 H3|r' H1 H2 H3|e H1];
    rewrite Hr in H1; try discriminate; injection H1 as <-.
  - reflexivity.
  - apply is_error_status_true in H2. lia.
  - apply is_error_status_true in H2. lia.
Qed.

(** The loop, one iteration unfolded. *)
Lemma for_attempts_cons url max_retries attempt rest delay w :
  for_attempts url max_retries (attempt :: rest) delay w =
  match attempt_body url max_retries attempt delay w with
  | (t1, w1, Ok (Return res)) => (t1 ++ [], w1, Ok res)
  | (t1, w1, Ok (Next delay')) =>
      let '(t2, w2, r) := for_attempts url max_retries rest delay' w1 in (t1 ++ t2, w2, r)
  | (t1, w1, Raised e) => (t1, w1, Raised e)
  end.
Proof.
  cbn [for_attempts]. unfold bind.
  destruct (attempt_body url max_retries attempt delay w) as [[t1 w1] [[res|d']|e]]; reflexivity.
Qed.

(** ** Runs in which every call ends in a server error *)

Lemma server_error_next w :
  (forall i, server_error (responses w i)) ->
  forall i, server_error (responses (next_random (next_response w)) i).
Proof. intros H i. exact (H (S i)). Qed.

Lemma for_attempts_all_server_errors url max_retries attempts :
  forall delay w,
    (forall i, server_error (responses w i)) ->
    let run := for_attempts url max_retries attempts delay w in
    attempts_made (trace_of run) = length attempts /\
    length (sleeps (trace_of run)) = length attempts /\
    result_of run = Raised (RuntimeError (all_failed_msg url) None).
Proof.
  induction attempts as [|a rest IH]; intros delay w Hw.
  - cbn. auto.
  - cbv zeta. rewrite for_attempts_cons.
    destruct (attempt_body_server_error url max_retries a delay w (Hw 0%nat))
      as (r & _ & ->).
    specialize (IH (Z.min (delay * 2) 30) _ (server_error_next w Hw)).
    cbv zeta in IH.
    destruct (for_attempts url max_retries rest (Z.min (delay * 2) 30)
                (next_random (next_response w))) as [[t2 w2] res].
    unfold trace_of, result_of in *. cbn in *.
    destruct IH as (IH1 & IH2 & IH3). now rewrite IH1, IH2, IH3.
Qed.

(** ** Runs that fail [k] times with a server error and then succeed *)

Lemma for_attempts_flaky url max_retries (k : nat) :
  forall attempts delay w r,
    (k < length attempts)%nat ->
    (forall i, (i < k)%nat -> server_error (responses w i)) ->
    success (responses w k) r ->
    let run := for_attempts url max_retries attempts delay w in
    attempts_made (trace_of run) = S k /\
    length (sleeps (trace_of run)) = k /\
    result_of run = Ok r.
Proof.
  induction k as [|k IH]; intros attempts delay w r Hlen Hfail Hok;
    destruct attempts as [|a rest]; cbn in Hlen; try lia; cbv zeta;
    rewrite for_attempts_cons.
  - rewrite (attempt_body_success url max_retries a delay w r Hok).
    unfold trace_of, result_of. cbn. auto.
  - destruct (attempt_body_server_error url max_retries a delay w (Hfail 0%nat ltac:(lia)))
      as (r0 & _ & ->).
    specialize (IH rest (Z.min (delay * 2) 30) (next_random (next_response w)) r).
    cbv zeta in IH.
    destruct (for_attempts url max_retries rest (Z.min (delay * 2) 30)
                (next_random (next_response w))) as [[t2 w2] res].
    unfold trace_of, result_of in *. cbn in *.
    destruct IH as (IH1 & IH2 & IH3).
    + lia.
    + intros i Hi. apply (Hfail (S i)). lia.
    + exact Hok.
    + now rewrite IH1, IH2, IH3.
Qed.

(** ** Main results on [get_with_backoff] *)

(** Exhaustion on server errors. When every call ends in a server error
    (status 500..599) and [max_retries >= 1], [get_with_backoff] makes
    exactly [max_retries] attempts and then raises the [RuntimeError] "All
    retries to query ... failed!" instead of returning a value. Timeouts,
    the other retryable failure, are not covered here. *)
Theorem get_with_backoff_exhausted url max_retries w :
  1 <= max_retries ->
  (forall i, server_error (responses w i)) ->
  let run := get_with_backoff url max_retries w in
  Z.of_nat (attempts_made (trace_of run)) = max_retries /\
  result_of run = Raised (RuntimeError (all_failed_msg url) None) /\
  (forall res, result_of run <> Ok res).
Proof.
  intros Hmax Hw run.
  destruct (for_attempts_all_server_errors url max_retries
              (range 1 (max_retries + 1)) 1 w Hw) as (H1 & _ & H3).
  fold (get_with_backoff url max_retries) in H1, H3. fold run in H1, H3.
  rewrite range_length in H1.
  repeat split.
  - rewrite H1. lia.
  - exact H3.
  - intros res. rewrite H3. discriminate.
Qed.

Lemma get_with_backoff_exhausted_witness :
  1 <= 4 /\
  (forall i, server_error (responses (always 503 (1 # 2)) i)) /\
  let run := get_with_backoff "https://httpbin.org/status/503" 4 (always 503 (1 # 2)) in
  Z.of_nat (attempts_made (trace_of run)) = 4 /\
  result_of run = Raised (RuntimeError (all_failed_msg "https://httpbin.org/status/503") None) /\
  (forall res, result_of run <> Ok res).
Proof.
  assert (H : forall i, server_error (responses (always 503 (1 # 2)) i)).
  { intros i. exists (mkResponse 503 ""). simpl. split; [reflexivity | lia]. }
  split; [lia|]. split; [exact H|].
  apply (get_with_backoff_exhausted "https://httpbin.org/status/503" 4 (always 503 (1 # 2)));
    [lia | exact H].
Defined.

(** Success after server errors. For [0 <= k < max_retries], when the first
    [k] calls end in a server error and call [k+1] succeeds,
    [get_with_backoff] makes exactly [k+1] attempts and returns the response
    of call [k+1]. Timeouts, the other retryable failure, are not covered
    here. *)
Theorem get_with_backoff_succeeds_after url max_retries (k : nat) w r :
  Z.of_nat k < max_retries ->
  (forall i, (i < k)%nat -> server_error (responses w i)) ->
  success (responses w k) r ->
  let run := get_with_backoff url max_retries w in
  attempts_made (trace_of run) = S k /\
  result_of run = Ok r.
Proof.
  intros Hk Hfail Hok run.
  destruct (for_attempts_flaky url max_retries k (range 1 (max_retries + 1)) 1 w r)
    as (H1 & _ & H3); auto.
  rewrite range_length. lia.
Qed.

Lemma get_with_backoff_succeeds_after_witness :
  Z.of_nat 2 < 4 /\
  (forall i, (i < 2)%nat -> server_error (responses (flaky 2 503 200 (1 # 2)) i)) /\
  success (responses (flaky 2 503 200 (1 # 2)) 2%nat) (mkResponse 200 "") /\
  let run := get_with_backoff "u" 4 (flaky 2 503 200 (1 # 2)) in
  attempts_made (trace_of run) = 3%nat /\
  result_of run = Ok (mkResponse 200 "").
Proof.
  assert (H1 : forall i, (i < 2)%nat -> server_error (responses (flaky 2 503 200 (1 # 2)) i)).
  { intros i Hi. exists (mkResponse 503 ""). simpl.
    destruct (Nat.ltb_spec i 2); [|lia]. split; [reflexivity | simpl; lia]. }
  assert (H2 : success (responses (flaky 2 503 200 (1 # 2)) 2%nat) (mkResponse 200 "")).
  { split; [reflexivity | simpl; lia]. }
  split; [lia|]. split; [exact H1|]. split; [exact H2|].
  apply (get_with_backoff_succeeds_after "u" 4 2 (flaky 2 503 200 (1 # 2)) (mkResponse 200 ""));
    [lia | exact H1 | exact H2].
Defined.

(** C6. When every call ends in a fatal failure (a client error: an
    [HTTPError] with status below 500) and [max_retries >= 1],
    [get_with_backoff] makes exactly one attempt, never sleeps, and raises at
    once a [RuntimeError] whose context is the [HTTPError] of that attempt. *)
Theorem get_with_backoff_client_error url max_retries w :
  1 <= max_retries ->
  (forall i, client_error (responses w i)) ->
  let run := get_with_backoff url max_retries w in
  attempts_made (trace_of run) = 1%nat /\
  sleeps (trace_of run) = [] /\
  exists r, responses w 0%nat = Responded r /\
            result_of run = Raised (RuntimeError client_error_msg (Some (HTTPError r))).
Proof.
  intros Hmax Hw run. subst run. unfold get_with_backoff.
  rewrite range_cons by lia. rewrite for_attempts_cons.
  destruct (attempt_body_client_error url max_retries 1 1 w (Hw 0%nat)) as (r & Hr & ->).
  unfold trace_of, result_of. cbn.
  repeat split. exists r. auto.
Qed.

Lemma get_with_backoff_client_error_witness :
  1 <= 3 /\
  (forall i, client_error (responses (always 404 0) i)) /\
  let run := get_with_backoff "u" 3 (always 404 0) in
  attempts_made (trace_of run) = 1%nat /\
  sleeps (trace_of run) = [] /\
  exists r, responses (always 404 0) 0%nat = Responded r /\
            result_of run = Raised (RuntimeError client_error_msg (Some (HTTPError r))).
Proof.
  assert (H : forall i, client_error (responses (always 404 0) i)).
  { intros i. exists (mkResponse 404 ""). simpl. split; [reflexivity | lia]. }
  split; [lia|]. split; [exact H|].
  apply (get_with_backoff_client_error "u" 3 (always 404 0)); [lia | exact H].
Defined.

(** C10. With [max_retries <= 0] the loop body never runs: no event at all
    is logged (no network call, no sleep), the world is untouched, and the
    function raises the [RuntimeError] "All retries to query ... failed!". *)
Theorem get_with_backoff_no_budget url max_retries w :
  max_retries <= 0 ->
  get_with_backoff url max_retries w =
    ([], w, Raised (RuntimeError (all_failed_msg url) None)).
Proof.
  intros H. unfold get_with_backoff. rewrite range_nil by lia. reflexivity.
Qed.

Lemma get_with_backoff_no_budget_witness :
  0 <= 0 /\
  get_with_backoff "u" 0 (always 200 0) =
    ([], always 200 0, Raised (RuntimeError (all_failed_msg "u") None)).
Proof.
  split; [lia|]. apply (get_with_backoff_no_budget "u" 0 (always 200 0)). lia.
Defined.

(** ** The loop state: [attempt] and [delay] *)

Lemma StronglySorted_map_double (l : list (Z * Z)) :
  StronglySorted Z.le (map snd l) ->
  StronglySorted Z.le (map (fun p => snd p * 2) l).
Proof.
  induction l as [|p l IH]; cbn; intros H; [constructor|].
  apply StronglySorted_inv in H. destruct H as (Hs & Hf).
  constructor; [auto|].
  rewrite Forall_map in *. eapply Forall_impl; [|exact Hf]. cbn. intros; lia.
Qed.

Lemma for_attempts_loop_state url max_retries attempts :
  forall delay w,
    0 <= delay <= 30 ->
    let run := for_attempts url max_retries attempts delay w in
    Forall (fun p => In (fst p) attempts /\ delay <= snd p <= 30)
           (iterations (trace_of run)) /\
    StronglySorted Z.le (map snd (iterations (trace_of run))) /\
    (attempts_made (trace_of run) <= length attempts)%nat.
Proof.
  induction attempts as [|a rest IH]; intros delay w Hd; cbv zeta.
  - cbn. repeat split; constructor.
  - rewrite for_attempts_cons.
    destruct (attempt_body_run url max_retries a delay w) as [r H1 H2|r H1 H2 H3|r H1 H2 H3|e H1].
    1, 2, 4: unfold trace_of; cbn; repeat split;
      [ constructor; [cbn; split; [auto | lia] | constructor]
      | constructor; [constructor | constructor]
      | lia ].
    specialize (IH (Z.min (delay * 2) 30) (next_random (next_response w)) ltac:(lia)).
    cbv zeta in IH.
    destruct (for_attempts url max_retries rest (Z.min (delay * 2) 30)
                (next_random (next_response w))) as [[t2 w2] res].
    unfold trace_of in *. cbn in *. destruct IH as (IH1 & IH2 & IH3).
    repeat split.
    + constructor; [cbn; split; [auto | lia]|].
      eapply Forall_impl; [|exact IH1]. cbn. intros p (Hin & Hp). split; [auto | lia].
    + constructor; [exact IH2|].
      rewrite Forall_map. eapply Forall_impl; [|exact IH1]. cbn. intros p (_ & Hp). lia.
    + lia.
Qed.

(** C9. In every run of [get_with_backoff], over the loop iterations in
    order: the delay before capping and jitter ([delay * 2]) never decreases,
    neither does [delay] itself, every [delay] is non-negative, and the
    attempt counter stays between 1 and [max_retries]; the number of attempts
    made does not exceed the budget either. *)
Theorem get_with_backoff_loop_invariant url max_retries w :
  let its := iterations (trace_of (get_with_backoff url max_retries w)) in
  StronglySorted Z.le (map (fun p => snd p * 2) its) /\
  StronglySorted Z.le (map snd its) /\
  Forall (fun p => 0 <= snd p) its /\
  Forall (fun p => 1 <= fst p <= max_retries) its /\
  Z.of_nat (attempts_made (trace_of (get_with_backoff url max_retries w)))
    <= Z.max 0 max_retries.
Proof.
  cbv zeta. unfold get_with_backoff.
  destruct (for_attempts_loop_state url max_retries (range 1 (max_retries + 1)) 1 w
              ltac:(lia)) as (H1 & H2 & H3).
  rewrite range_length in H3.
  repeat split.
  - now apply StronglySorted_map_double.
  - exact H2.
  - eapply Forall_impl; [|exact H1]. cbn. intros p (_ & Hp). lia.
  - eapply Forall_impl; [|exact H1]. cbn. intros p (Hin & _).
    apply in_range in Hin. lia.
  - lia.
Qed.

(** ** The jittered wait *)

Lemma inject_Z_nonneg d : 0 <= d -> (0 <= inject_Z d)%Q.
Proof. intros H. change (inject_Z 0 <= inject_Z d)%Q. rewrite <- Zle_Qle. exact H. Qed.

Lemma jitter_of_bounds d u :
  0 <= d -> (0 <= u <= 1)%Q ->
  (-(1 # 10) * inject_Z d <= jitter_of d u <= (1 # 10) * inject_Z d)%Q.
Proof.
  intros Hd Hu. unfold jitter_of.
  pose proof (inject_Z_nonneg d Hd) as Hq.
  nra.
Qed.

Lemma wait_of_bounds d u :
  0 <= d <= 30 -> (0 <= u <= 1)%Q ->
  within_ten_percent (inject_Z (Z.min (d * 2) 30)) (wait_of d u) /\
  (0 <= wait_of d u)%Q.
Proof.
  intros Hd Hu. unfold within_ten_percent, wait_of.
  pose proof (jitter_of_bounds d u (proj1 Hd) Hu) as Hj.
  pose proof (inject_Z_nonneg d (proj1 Hd)) as Hq.
  assert (Hm : (inject_Z d <= inject_Z (Z.min (d * 2) 30))%Q)
    by (rewrite <- Zle_Qle; lia).
  lra.
Qed.

Lemma unit_randoms_next w :
  unit_randoms w -> unit_randoms (next_random (next_response w)).
Proof. intros H k. exact (H (S k)). Qed.

Lemma for_attempts_waits url max_retries attempts :
  forall delay w d0,
    0 <= delay <= 30 ->
    unit_randoms w ->
    Forall (fun p => within_ten_percent (inject_Z (Z.min (fst p * 2) 30)) (snd p) /\
                     (0 <= snd p)%Q)
           (waits d0 (trace_of (for_attempts url max_retries attempts delay w))).
Proof.
  induction attempts as [|a rest IH]; intros delay w d0 Hd Hw.
  - cbn. constructor.
  - rewrite for_attempts_cons.
    destruct (attempt_body_run url max_retries a delay w) as [r H1 H2|r H1 H2 H3|r H1 H2 H3|e H1].
    1, 2, 4: unfold trace_of; cbn; constructor.
    specialize (IH (Z.min (delay * 2) 30) (next_random (next_response w)) delay
                   ltac:(lia) (unit_randoms_next w Hw)).
    destruct (for_attempts url max_retries rest (Z.min (delay * 2) 30)
                (next_random (next_response w))) as [[t2 w2] res].
    unfold trace_of in *. cbn in *.
    constructor; [|exact IH].
    cbn. apply wait_of_bounds; [lia | apply Hw].
Qed.

(** C8. Whatever the random generator gives (values of [random.random()] in
    [0, 1], so that the jitter lies in [-0.1*delay, 0.1*delay]), every
    duration slept by [get_with_backoff] is within 10% of the pre-jitter
    delay [min(delay * 2, 30)] of its iteration, and is not negative. *)
Theorem get_with_backoff_wait_bounds url max_retries w :
  unit_randoms w ->
  Forall (fun p => within_ten_percent (inject_Z (Z.min (fst p * 2) 30)) (snd p) /\
                   (0 <= snd p)%Q)
         (waits 1 (trace_of (get_with_backoff url max_retries w))).
Proof.
  intros Hw. unfold get_with_backoff. apply for_attempts_waits; [lia | exact Hw].
Qed.

Lemma get_with_backoff_wait_bounds_witness :
  unit_randoms (always 503 (3 # 4)) /\
  Forall (fun p => within_ten_percent (inject_Z (Z.min (fst p * 2) 30)) (snd p) /\
                   (0 <= snd p)%Q)
         (waits 1 (trace_of (get_with_backoff "u" 7 (always 503 (3 # 4))))).
Proof.
  assert (H : unit_randoms (always 503 (3 # 4))).
  { intros k. simpl. split; discriminate. }
  split; [exact H|].
  apply (get_with_backoff_wait_bounds "u" 7 (always 503 (3 # 4)) H).
Defined.

(** ** The error raised when the budget is exhausted *)

(** C5, as amended. The [RuntimeError] raised once the budget is exhausted
    carries the message "All retries to query {url} failed!" and no context:
    it is built from the URL alone, and two runs on the same URL that exhaust
    their budgets raise the same error whatever their failures were. *)
Theorem exhausted_error_names_url_only url max_retries w1 w2 :
  (forall i, server_error (responses w1 i)) ->
  (forall i, server_error (responses w2 i)) ->
  result_of (get_with_backoff url max_retries w1) =
    Raised (RuntimeError (all_failed_msg url) None) /\
  result_of (get_with_backoff url max_retries w1) =
    result_of (get_with_backoff url max_retries w2).
Proof.
  intros H1 H2.
  destruct (for_attempts_all_server_errors url max_retries
              (range 1 (max_retries + 1)) 1 w1 H1) as (_ & _ & E1).
  destruct (for_attempts_all_server_errors url max_retries
              (range 1 (max_retries + 1)) 1 w2 H2) as (_ & _ & E2).
  unfold get_with_backoff. rewrite E1, E2. auto.
Qed.

Lemma always_server_error status u :
  500 <= status < 600 -> forall i, server_error (responses (always status u) i).
Proof. intros H i. exists (mkResponse status ""). split; [reflexivity | exact H]. Qed.

Lemma exhausted_error_names_url_only_witness :
  (forall i, server_error (responses (always 500 0) i)) /\
  (forall i, server_error (responses (always 503 0) i)) /\
  result_of (get_with_backoff "u" 2 (always 500 0)) =
    Raised (RuntimeError (all_failed_msg "u") None) /\
  result_of (get_with_backoff "u" 2 (always 500 0)) =
    result_of (get_with_backoff "u" 2 (always 503 0)).
Proof.
  split; [apply always_server_error; lia|].
  split; [apply always_server_error; lia|].
  apply (exhausted_error_names_url_only "u" 2 (always 500 0) (always 503 0));
    apply always_server_error; lia.
Defined.

(** C5, as the specification states it, fails: a run whose attempts all end
    in status 500 and a run whose attempts all end in status 503 raise the
    very same error, so no function of the error gives the last cause. *)
Lemma last_cause_not_recoverable :
  result_of (get_with_backoff "u" 2 (always 500 0)) =
    Raised (RuntimeError "All retries to query u failed!" None) /\
  result_of (get_with_backoff "u" 2 (always 503 0)) =
    Raised (RuntimeError "All retries to query u failed!" None) /\
  ~ last_cause_recoverable.
Proof.
  split; [reflexivity|]. split; [reflexivity|].
  intros (recover & H).
  pose proof (H "u" 2 (always 500 0) (mkResponse 500 "")
                (RuntimeError "All retries to query u failed!" None)
                ltac:(lia) (always_server_error 500 0 ltac:(lia)) eq_refl eq_refl) as E1.
  pose proof (H "u" 2 (always 503 0) (mkResponse 503 "")
                (RuntimeError "All retries to query u failed!" None)
                ltac:(lia) (always_server_error 503 0 ltac:(lia)) eq_refl eq_refl) as E2.
  cbn in E1, E2. lia.
Qed.

(** ** The delay from attempt to attempt *)

Lemma next_delay_pow a :
  1 <= a -> Z.min (Z.min (2 ^ (a - 1)) 30 * 2) 30 = Z.min (2 ^ a) 30.
Proof.
  intros Ha. replace (2 ^ a) with (2 * 2 ^ (a - 1)).
  - lia.
  - rewrite <- Z.pow_succ_r by lia. f_equal. lia.
Qed.

(** When every call ends in a server error, [delay] at attempt [n] is
    [min(2^(n-1), 30)], and the wait of attempt [n] before jitter is
    [min(2^n, 30)]. *)
Lemma for_attempts_delays url max_retries (n : nat) :
  forall a w d0,
    1 <= a ->
    (forall i, server_error (responses w i)) ->
    let run := for_attempts url max_retries (range a (a + Z.of_nat n))
                 (Z.min (2 ^ (a - 1)) 30) w in
    iterations (trace_of run) =
      map (fun m => (m, Z.min (2 ^ (m - 1)) 30)) (range a (a + Z.of_nat n)) /\
    map (fun p => Z.min (fst p * 2) 30) (waits d0 (trace_of run)) =
      map (fun m => Z.min (2 ^ m) 30) (range a (a + Z.of_nat n)).
Proof.
  induction n as [|n IH]; intros a w d0 Ha Hw; cbv zeta.
  - rewrite range_nil by lia. cbn. auto.
  - rewrite range_cons by lia.
    replace (a + Z.of_nat (S n)) with (a + 1 + Z.of_nat n) by lia.
    rewrite for_attempts_cons.
    destruct (attempt_body_server_error url max_retries a (Z.min (2 ^ (a - 1)) 30) w (Hw 0%nat))
      as (r & _ & ->).
    rewrite next_delay_pow by lia.
    specialize (IH (a + 1) (next_random (next_response w)) (Z.min (2 ^ (a - 1)) 30)
                   ltac:(lia) (server_error_next w Hw)).
    cbv zeta in IH. replace (a + 1 - 1) with a in IH by lia.
    destruct (for_attempts url max_retries (range (a + 1) (a + 1 + Z.of_nat n))
                (Z.min (2 ^ a) 30) (next_random (next_response w))) as [[t2 w2] res].
    unfold trace_of in *. cbn [fst snd app iterations waits map] in *.
    destruct IH as (IH1 & IH2). rewrite IH1, IH2.
    split; [reflexivity|]. f_equal. apply next_delay_pow. exact Ha.
Qed.

Lemma get_with_backoff_delays url max_retries w :
  (forall i, server_error (responses w i)) ->
  let run := get_with_backoff url max_retries w in
  iterations (trace_of run) =
    map (fun m => (m, Z.min (2 ^ (m - 1)) 30)) (range 1 (max_retries + 1)) /\
  map (fun p => Z.min (fst p * 2) 30) (waits 1 (trace_of run)) =
    map (fun m => Z.min (2 ^ m) 30) (range 1 (max_retries + 1)).
Proof.
  intros Hw. cbv zeta. unfold get_with_backoff.
  destruct (Z.le_gt_cases max_retries 0) as [Hle|Hgt].
  - rewrite range_nil by lia. cbn. auto.
  - replace (max_retries + 1) with (1 + Z.of_nat (Z.to_nat max_retries)) by lia.
    exact (for_attempts_delays url max_retries (Z.to_nat max_retries) 1 w 1 ltac:(lia) Hw).
Qed.

(** The first wait lies between 1.9s and 2.1s, not between 0.9s and 1.1s. *)
Lemma first_wait_bounds u :
  (0 <= u <= 1)%Q -> ((19 # 10) <= wait_of 1 u <= (21 # 10))%Q.
Proof.
  intros Hu. unfold wait_of, jitter_of. cbn [Z.min Z.mul Z.compare Pos.mul Pos.compare Pos.compare_cont].
  change (inject_Z 2) with 2%Q. change (inject_Z 1) with 1%Q. lra.
Qed.

(** C1 at the run of the notebook (every call answers 503, four attempts;
    the random generator gives 1/2, so that the jitter is 0): the waits
    before jitter are 2, 4, 8, 16 and so are the durations slept, where
    [min(1 * 2^(n-1), 30)] gives 1, 2, 4, 8. *)
Theorem get_with_backoff_first_wait_doubled :
  let run := get_with_backoff "https://httpbin.org/status/503" 4 (always 503 (1 # 2)) in
  map (fun p => Z.min (fst p * 2) 30) (waits 1 (trace_of run)) = [2; 4; 8; 16] /\
  map Qred (sleeps (trace_of run)) = [2; 4; 8; 16]%Q /\
  map (fun n => Z.min (1 * 2 ^ (n - 1)) 30) (range 1 5) = [1; 2; 4; 8].
Proof. vm_compute. auto. Qed.

(** C2 at the same run: four attempts, four sleeps, and the last sleep
    comes after the final attempt, just before the error is raised. *)
Theorem get_with_backoff_sleeps_after_final_attempt :
  let run := get_with_backoff "https://httpbin.org/status/503" 4 (always 503 (1 # 2)) in
  attempts_made (trace_of run) = 4%nat /\
  length (sleeps (trace_of run)) = 4%nat /\
  map Qred (sleeps (since_last_get (trace_of run))) = [16%Q] /\
  result_of run = Raised (RuntimeError (all_failed_msg "https://httpbin.org/status/503") None).
Proof. vm_compute. auto. Qed.

(** C3 at a run whose first call times out, with a budget of three
    attempts: one attempt, no sleep, and the timeout reaches the caller. *)
Theorem get_with_backoff_timeout_escapes :
  let run := get_with_backoff "https://httpbin.org/delay/5" 3 (timing_out 0) in
  attempts_made (trace_of run) = 1%nat /\
  sleeps (trace_of run) = [] /\
  result_of run = Raised (RequestError ReadTimeout).
Proof. vm_compute. auto. Qed.

(** C4 at a run whose every call times out, with a budget of four attempts.
    A timeout is a retryable failure, yet the function makes one attempt,
    not four, never sleeps, and the timeout reaches the caller in place of
    the [RuntimeError] "All retries to query ... failed!". *)
Theorem get_with_backoff_timeouts_not_exhausted :
  let url := "https://httpbin.org/delay/15" in
  let run := get_with_backoff url 4 (timing_out (1 # 2)) in
  (forall i, responses (timing_out (1 # 2)) i = Failed ReadTimeout) /\
  attempts_made (trace_of run) = 1%nat /\
  sleeps (trace_of run) = [] /\
  result_of run = Raised (RequestError ReadTimeout) /\
  result_of run <> Raised (RuntimeError (all_failed_msg url) None).
Proof.
  cbv zeta. split; [intros i; reflexivity|].
  vm_compute. repeat split; discriminate.
Qed.

(** C7 at a run whose first call times out and whose second call would
    answer 200, with a budget of three attempts (k = 1). The function makes
    one attempt, not two, and raises the timeout: the response of the second
    call is never asked for, let alone returned. *)
Theorem get_with_backoff_timeout_then_success :
  let w := timeout_then 1 200 (1 # 2) in
  let run := get_with_backoff "https://httpbin.org/delay/9" 3 w in
  responses w 0%nat = Failed ReadTimeout /\
  success (responses w 1%nat) (mkResponse 200 "") /\
  attempts_made (trace_of run) = 1%nat /\
  result_of run = Raised (RequestError ReadTimeout) /\
  result_of run <> Ok (mkResponse 200 "").
Proof.
  cbv zeta. split; [reflexivity|]. split; [split; [reflexivity | cbn; lia]|].
  vm_compute. repeat split; discriminate.
Qed.

(** In general: an exception of [requests.get] leaves [get_with_backoff] at
    the first attempt, whatever the budget. *)
Lemma get_with_backoff_request_error url max_retries w e :
  1 <= max_retries ->
  responses w 0%nat = Failed e ->
  get_with_backoff url max_retries w =
    ([Iter 1 1; Print (MsgAttempt 1 max_retries); Get url 10],
     next_response w, Raised (RequestError e)).
Proof.
  intros Hmax Hw. unfold get_with_backoff.
  rewrite range_cons by lia. rewrite for_attempts_cons.
  destruct (attempt_body_run url max_retries 1 1 w) as [r H1 H2|r H1 H2 H3|r H1 H2 H3|e' H1];
    rewrite Hw in H1; try discriminate.
  injection H1 as <-. reflexivity.
Qed.

(** The number of sleeps equals the number of attempts when every call ends
    in a server error: one sleep follows the final attempt. *)
Lemma get_with_backoff_sleeps_every_failure url max_retries w :
  1 <= max_retries ->
  (forall i, server_error (responses w i)) ->
  Z.of_nat (length (sleeps (trace_of (get_with_backoff url max_retries w)))) = max_retries.
Proof.
  intros Hmax Hw.
  destruct (for_attempts_all_server_errors url max_retries
              (range 1 (max_retries + 1)) 1 w Hw) as (_ & H2 & _).
  unfold get_with_backoff. rewrite H2, range_length. lia.
Qed.

(** ** The simple retry loop *)

Lemma simple_body_server_error url max_retries delay attempt w :
  server_error (responses w 0%nat) ->
  exists r, responses w 0%nat = Responded r /\
  simple_body url max_retries delay attempt w =
    ([Iter attempt delay; Print (MsgAttempt attempt max_retries); Get url 10;
      Print (MsgServerError (status_code r))]
     ++ (if attempt <? max_retries
         then [Print (MsgWaiting delay); Sleep (inject_Z delay)] else []),
     next_response w, Ok FallThrough).
Proof.
  intros (r & Hr & Hs). exists r. split; [exact Hr|].
  unfold simple_body, bind, try_except, print, sleep, log, requests_get,
    raise_for_status, raise, ret.
  rewrite Hr. cbn.
  rewrite (proj2 (is_error_status_true (status_code r))) by lia. cbn.
  destruct (Z.ltb_spec (status_code r) 500) as [Hlt|_]; [lia|]. cbn.
  destruct (attempt <? max_retries); reflexivity.
Qed.

Lemma simple_for_sleeps url max_retries delay (n : nat) :
  forall a w,
    a + Z.of_nat n = max_retries + 1 ->
    (forall i, server_error (responses w i)) ->
    let run := simple_for url max_retries delay (range a (max_retries + 1)) w in
    length (sleeps (trace_of run)) = Nat.pred n /\
    attempts_made (trace_of run) = n.
Proof.
  induction n as [|n IH]; intros a w Ha Hw; cbv zeta.
  - rewrite range_nil by lia. cbn. auto.
  - rewrite range_cons by lia. cbn [simple_for]. unfold bind.
    destruct (simple_body_server_error url max_retries delay a w (Hw 0%nat))
      as (r & _ & ->).
    specialize (IH (a + 1) (next_response w) ltac:(lia) (fun i => Hw (S i))).
    cbv zeta in IH.
    destruct (simple_for url max_retries delay (range (a + 1) (max_retries + 1))
                (next_response w)) as [[t2 w2] res].
    unfold trace_of in *. cbn [fst] in *. destruct IH as (IH1 & IH2).
    rewrite sleeps_app, attempts_made_app, length_app, IH1, IH2.
    destruct (Z.ltb_spec a max_retries); cbn; split; lia.
Qed.

(** The sibling loop waits only between attempts: with every call ending in
    a server error it makes [max_retries] attempts and sleeps
    [max_retries - 1] times. *)
Lemma simple_retry_loop_waits_between_attempts url max_retries delay w :
  1 <= max_retries ->
  (forall i, server_error (responses w i)) ->
  let run := simple_retry_loop url max_retries delay w in
  Z.of_nat (attempts_made (trace_of run)) = max_retries /\
  Z.of_nat (length (sleeps (trace_of run))) = max_retries - 1.
Proof.
  intros Hmax Hw. cbv zeta. unfold simple_retry_loop.
  destruct (simple_for_sleeps url max_retries delay (Z.to_nat max_retries) 1 w
              ltac:(lia) Hw) as (H1 & H2).
  rewrite H1, H2. lia.
Qed.

Example simple_retry_loop_run :
  let run := simple_retry_loop "https://httpbin.org/status/503" 4 2 (always 503 0) in
  attempts_made (trace_of run) = 4%nat /\
  sleeps (trace_of run) = [2; 2; 2]%Q /\
  since_last_get (trace_of run) = [Print (MsgServerError 503); Print (MsgAllFailed 4)].
Proof. vm_compute. auto. Qed.

(** The run printed in the notebook: a 503, a wait of 2s, then a 200. *)
Example simple_retry_loop_notebook_run :
  trace_of (simple_retry_loop "https://httpbin.org/status/200,500,503" 3 2
              (flaky 1 503 200 0)) =
    [Iter 1 2; Print (MsgAttempt 1 3); Get "https://httpbin.org/status/200,500,503" 10;
     Print (MsgServerError 503); Print (MsgWaiting 2); Sleep 2;
     Iter 2 2; Print (MsgAttempt 2 3); Get "https://httpbin.org/status/200,500,503" 10;
     Print (MsgSucceeded 200)].
Proof. reflexivity. Qed.

(** The run captured in the notebook, with its printed waits: 1.99s, 4.14s,
    7.81s and 16.78s, the last one after attempt 4 of 4. *)
Example get_with_backoff_notebook_run :
  let run := get_with_backoff "https://httpbin.org/status/503" 4 notebook_world in
  map Qred (sleeps (trace_of run)) =
    map Qred [199 # 100; 414 # 100; 781 # 100; 1678 # 100]%Q /\
  map fst (iterations (trace_of run)) = [1; 2; 3; 4] /\
  result_of run = Raised (RuntimeError "All retries to query https://httpbin.org/status/503 failed!" None).
Proof. vm_compute. auto. Qed.

(** * Further properties of the two loops and of the calling cell *)

(** ** The call that decides a run *)

Lemma leading_server_errors_le budget : forall rs,
  (leading_server_errors budget rs <= budget)%nat.
Proof.
  induction budget as [|n IH]; intros rs; cbn; [lia|].
  destruct (is_server_error (rs 0%nat)); [|lia].
  specialize (IH (fun k => rs (S k))). lia.
Qed.




(** The outcome of the first call, as the loop bodies sort it. *)
Lemma body_run_is_server_error url max_retries attempt delay w x :
  body_run url max_retries attempt delay w x ->
  is_server_error (responses w 0%nat) =
    match snd x with Ok (Next _) => true | _ => false end.
Proof.
  intros [r H1 H2|r H1 H2 H3|r H1 H2 H3|e H1]; unfold is_server_error; rewrite H1; cbn;
    try reflexivity; rewrite H2; cbn.
  - reflexivity.
  - destruct (Z.ltb_spec (status_code r) 500); [reflexivity | lia].
  - destruct (Z.ltb_spec (status_code r) 500); [lia | reflexivity].
Qed.

Lemma for_attempts_decided url max_retries attempts :
  forall delay w,
    let run := for_attempts url max_retries attempts delay w in
    let k := leading_server_errors (length attempts) (responses w) in
    length (sleeps (trace_of run)) = k /\
    attempts_made (trace_of run) = Nat.min (S k) (length attempts) /\
    result_of run = backoff_result url (length attempts) (responses w).
Proof.
  induction attempts as [|a rest IH]; intros delay w; cbv zeta.
  - cbn. auto.
  - rewrite for_attempts_cons. unfold backoff_result.
    cbn [length leading_server_errors].
    pose proof (body_run_is_server_error url max_retries a delay w _
                  (attempt_body_run url max_retries a delay w)) as Hs.
    destruct (attempt_body_run url max_retries a delay w) as [r H1 H2|r H1 H2 H3|r H1 H2 H3|e H1];
      cbn [snd] in Hs; rewrite Hs.
    1, 2, 4: unfold trace_of, result_of; cbn; rewrite H1; try rewrite H2; auto.
    specialize (IH (Z.min (delay * 2) 30) (next_random (next_response w))).
    cbv zeta in IH. unfold backoff_result in IH.
    change (responses (next_random (next_response w)))
      with (fun k => responses w (S k)) in IH.
    destruct (for_attempts url max_retries rest (Z.min (delay * 2) 30)
                (next_random (next_response w))) as [[t2 w2] res].
    unfold trace_of, result_of in *. cbn [fst snd] in *.
    destruct IH as (IH1 & IH2 & IH3).
    cbn [app sleeps attempts_made length]. rewrite IH1, IH2, IH3.
    repeat split; reflexivity.
Qed.

(** X1. For every world, [get_with_backoff] is decided by the first of its
    [max_retries] calls that does not end in a server error: with [k] server
    errors before it, the function sleeps [k] times, makes [k + 1] attempts
    (all [max_retries] of them when there is no such call) and ends as that
    call commands: the response is returned, or a client error or an
    exception of [requests.get] is raised, or, the budget spent, the final
    [RuntimeError]. *)
Theorem get_with_backoff_decided_by_first_other_call url max_retries w :
  let run := get_with_backoff url max_retries w in
  let budget := Z.to_nat max_retries in
  let k := leading_server_errors budget (responses w) in
  length (sleeps (trace_of run)) = k /\
  attempts_made (trace_of run) = Nat.min (S k) budget /\
  result_of run = backoff_result url budget (responses w).
Proof.
  cbv zeta. unfold get_with_backoff.
  pose proof (for_attempts_decided url max_retries (range 1 (max_retries + 1)) 1 w) as H.
  cbv zeta in H. rewrite range_length in H.
  replace (Z.to_nat (max_retries + 1 - 1)) with (Z.to_nat max_retries) in H by lia.
  exact H.
Qed.

(** ** What a run can end with *)

Lemma for_attempts_ends_well url max_retries attempts :
  forall delay w,
    ends_well url (result_of (for_attempts url max_retries attempts delay w)).
Proof.
  induction attempts as [|a rest IH]; intros delay w.
  - cbn. auto.
  - rewrite for_attempts_cons.
    destruct (attempt_body_run url max_retries a delay w) as [r H1 H2|r H1 H2 H3|r H1 H2 H3|e H1].
    + cbn. now apply is_error_status_false.
    + cbn. right. split; [reflexivity|]. exists r. split; [reflexivity|].
      apply is_error_status_true in H2. lia.
    + specialize (IH (Z.min (delay * 2) 30) (next_random (next_response w))).
      destruct (for_attempts url max_retries rest (Z.min (delay * 2) 30)
                  (next_random (next_response w))) as [[t2 w2] res].
      exact IH.
    + cbn. exact I.
Qed.

(** X2. For every world: a response returned by [get_with_backoff] never has
    a status in 400..599; the function never lets an [HTTPError] out; a
    [RuntimeError] it raises is either the final one, without context, or
    the client error one, whose context is an [HTTPError] of status
    400..499. *)
Theorem get_with_backoff_ends_well url max_retries w :
  ends_well url (result_of (get_with_backoff url max_retries w)).
Proof. unfold get_with_backoff. apply for_attempts_ends_well. Qed.

(** ** Attempts and network calls *)

Lemma firstn_range (k : nat) : forall start stop,
  (k <= Z.to_nat (stop - start))%nat ->
  firstn k (range start stop) = range start (start + Z.of_nat k).
Proof.
  induction k as [|k IH]; intros start stop H.
  - rewrite (range_nil start (start + Z.of_nat 0)) by lia. reflexivity.
  - rewrite (range_cons start stop) by lia.
    rewrite (range_cons start (start + Z.of_nat (S k))) by lia.
    cbn [firstn]. f_equal.
    rewrite IH by lia. f_equal. lia.
Qed.

Lemma for_attempts_calls url max_retries attempts :
  forall delay w,
    let t := trace_of (for_attempts url max_retries attempts delay w) in
    map fst (iterations t) = firstn (attempts_made t) attempts /\
    gets t = repeat (url, 10) (attempts_made t) /\
    (attempts_made t <= length attempts)%nat.
Proof.
  induction attempts as [|a rest IH]; intros delay w; cbv zeta.
  - cbn. auto.
  - rewrite for_attempts_cons.
    destruct (attempt_body_run url max_retries a delay w) as [r H1 H2|r H1 H2 H3|r H1 H2 H3|e H1].
    1, 2, 4: unfold trace_of; cbn; repeat split; lia.
    specialize (IH (Z.min (delay * 2) 30) (next_random (next_response w))).
    cbv zeta in IH.
    destruct (for_attempts url max_retries rest (Z.min (delay * 2) 30)
                (next_random (next_response w))) as [[t2 w2] res].
    unfold trace_of in *. cbn [fst] in *. destruct IH as (IH1 & IH2 & IH3).
    cbn. rewrite IH1, IH2. repeat split; lia.
Qed.

(** X3. For every world, the iterations of [get_with_backoff] are numbered
    1, 2, ..., m without a gap, where m is the number of network calls; each
    iteration makes exactly one call, to [url] with a timeout of 10 seconds. *)
Theorem get_with_backoff_one_call_per_attempt url max_retries w :
  let t := trace_of (get_with_backoff url max_retries w) in
  map fst (iterations t) = range 1 (1 + Z.of_nat (attempts_made t)) /\
  gets t = repeat (url, 10) (attempts_made t).
Proof.
  cbv zeta. unfold get_with_backoff.
  destruct (for_attempts_calls url max_retries (range 1 (max_retries + 1)) 1 w)
    as (H1 & H2 & H3).
  rewrite range_length in H3.
  split; [|exact H2].
  rewrite H1. apply firstn_range. exact H3.
Qed.

(** ** How long a run sleeps *)

Lemma wait_of_range d u :
  1 <= d <= 30 -> (0 <= u <= 1)%Q -> ((19 # 10) <= wait_of d u <= 33)%Q.
Proof.
  intros Hd Hu. unfold wait_of.
  pose proof (jitter_of_bounds d u ltac:(lia) Hu) as Hj.
  assert (H1 : (1 <= inject_Z d)%Q)
    by (change (inject_Z 1 <= inject_Z d)%Q; rewrite <- Zle_Qle; lia).
  assert (H30 : (inject_Z d <= 30)%Q)
    by (change (inject_Z d <= inject_Z 30)%Q; rewrite <- Zle_Qle; lia).
  destruct (Z.min_spec (d * 2) 30) as [[Hlt ->]|[Hge ->]].
  - assert (H15 : (inject_Z (d * 2) <= 30)%Q)
      by (change (inject_Z (d * 2) <= inject_Z 30)%Q; rewrite <- Zle_Qle; lia).
    rewrite inject_Z_mult in H15 |- *. change (inject_Z 2) with 2%Q in H15 |- *.
    lra.
  - change (inject_Z 30) with 30%Q. lra.
Qed.

Lemma total_sleep_bound (c : Q) (l : list Q) :
  Forall (fun s => s <= c)%Q l ->
  (fold_right Qplus 0 l <= c * inject_Z (Z.of_nat (length l)))%Q.
Proof.
  induction 1 as [|s l Hs Hl IH].
  - cbn [fold_right length Z.of_nat]. change (inject_Z 0) with 0%Q.
    rewrite Qmult_0_r. apply Qle_refl.
  - cbn [fold_right length]. rewrite Nat2Z.inj_succ. unfold Z.succ.
    rewrite inject_Z_plus. change (inject_Z 1) with 1%Q.
    rewrite Qmult_plus_distr_r, Qmult_1_r.
    apply Qplus_le_compat with (x := s) (y := c) in IH; [|exact Hs].
    rewrite (Qplus_comm c) in IH. exact IH.
Qed.

Lemma for_attempts_sleep_range url max_retries attempts :
  forall delay w,
    1 <= delay <= 30 ->
    unit_randoms w ->
    Forall (fun s => (19 # 10) <= s <= 33)%Q
           (sleeps (trace_of (for_attempts url max_retries attempts delay w))).
Proof.
  induction attempts as [|a rest IH]; intros delay w Hd Hw.
  - cbn. constructor.
  - rewrite for_attempts_cons.
    destruct (attempt_body_run url max_retries a delay w) as [r H1 H2|r H1 H2 H3|r H1 H2 H3|e H1].
    1, 2, 4: unfold trace_of; cbn; constructor.
    specialize (IH (Z.min (delay * 2) 30) (next_random (next_response w))
                   ltac:(lia) (unit_randoms_next w Hw)).
    destruct (for_attempts url max_retries rest (Z.min (delay * 2) 30)
                (next_random (next_response w))) as [[t2 w2] res].
    unfold trace_of in *. cbn in *.
    constructor; [|exact IH].
    apply wait_of_range; [lia | apply Hw].
Qed.

(** X4. With [random.random()] in [0, 1], every sleep of [get_with_backoff]
    lasts between 1.9 and 33 seconds, and the time a call spends sleeping is
    at most 33 seconds per attempt of its budget. *)
Theorem get_with_backoff_sleep_time url max_retries w :
  unit_randoms w ->
  let t := trace_of (get_with_backoff url max_retries w) in
  Forall (fun s => (19 # 10) <= s <= 33)%Q (sleeps t) /\
  (total_sleep t <= 33 * inject_Z (Z.max 0 max_retries))%Q.
Proof.
  intros Hw. cbv zeta.
  pose proof (for_attempts_sleep_range url max_retries (range 1 (max_retries + 1)) 1 w
                ltac:(lia) Hw) as Hr.
  destruct (for_attempts_decided url max_retries (range 1 (max_retries + 1)) 1 w)
    as (Hk & _ & _).
  pose proof (leading_server_errors_le (length (range 1 (max_retries + 1))) (responses w)) as Hle.
  rewrite range_length in Hle, Hk.
  fold (get_with_backoff url max_retries) in Hr, Hk.
  split; [exact Hr|].
  unfold total_sleep.
  assert (Hc : Forall (fun s => s <= 33)%Q
                 (sleeps (trace_of (get_with_backoff url max_retries w)))).
  { eapply Forall_impl; [|exact Hr]. cbn. intros s Hs. apply Hs. }
  pose proof (total_sleep_bound 33 _ Hc) as Hsum.
  assert (Hn : (inject_Z (Z.of_nat (length (sleeps (trace_of (get_with_backoff url max_retries w)))))
                <= inject_Z (Z.max 0 max_retries))%Q).
  { rewrite <- Zle_Qle. rewrite Hk. lia. }
  lra.
Qed.

Lemma get_with_backoff_sleep_time_witness :
  unit_randoms notebook_world /\
  let t := trace_of (get_with_backoff "https://httpbin.org/status/503" 4 notebook_world) in
  Forall (fun s => (19 # 10) <= s <= 33)%Q (sleeps t) /\
  (total_sleep t <= 33 * inject_Z (Z.max 0 4))%Q.
Proof.
  assert (H : unit_randoms notebook_world).
  { intros k. simpl. do 5 (destruct k as [|k]; [split; discriminate|]).
    destruct k; split; discriminate. }
  split; [exact H|].
  apply (get_with_backoff_sleep_time "https://httpbin.org/status/503" 4 notebook_world H).
Defined.

(** ** What a run takes from the world *)

Lemma for_attempts_consumes url max_retries attempts :
  forall delay w,
    let run := for_attempts url max_retries attempts delay w in
    forall i,
      responses (world_of run) i = responses w (attempts_made (trace_of run) + i)%nat /\
      randoms (world_of run) i = randoms w (length (sleeps (trace_of run)) + i)%nat.
Proof.
  induction attempts as [|a rest IH]; intros delay w; cbv zeta.
  - cbn. auto.
  - rewrite for_attempts_cons.
    destruct (attempt_body_run url max_retries a delay w) as [r H1 H2|r H1 H2 H3|r H1 H2 H3|e H1].
    1, 2, 4: unfold trace_of, world_of; cbn; auto.
    specialize (IH (Z.min (delay * 2) 30) (next_random (next_response w))).
    cbv zeta in IH.
    destruct (for_attempts url max_retries rest (Z.min (delay * 2) 30)
                (next_random (next_response w))) as [[t2 w2] res].
    unfold trace_of, world_of in *. cbn in *. exact IH.
Qed.

(** X5. [get_with_backoff] takes from the world exactly one answer per
    attempt and one random value per sleep: the code that runs after it finds
    the remaining answers and random values, in order. *)
Theorem get_with_backoff_consumes url max_retries w :
  let run := get_with_backoff url max_retries w in
  forall i,
    responses (world_of run) i = responses w (attempts_made (trace_of run) + i)%nat /\
    randoms (world_of run) i = randoms w (length (sleeps (trace_of run)) + i)%nat.
Proof. unfold get_with_backoff. apply for_attempts_consumes. Qed.

(** ** The simple retry loop, for every world *)





(** ** The schedule of the sleeps *)

Lemma for_attempts_schedule url max_retries (n : nat) :
  forall a w d0,
    1 <= a ->
    waits d0 (trace_of (for_attempts url max_retries (range a (a + Z.of_nat n))
                          (Z.min (2 ^ (a - 1)) 30) w)) =
    map (fun m => (Z.min (2 ^ (m - 1)) 30,
                   wait_of (Z.min (2 ^ (m - 1)) 30) (randoms w (Z.to_nat (m - a)))))
        (range a (a + Z.of_nat (leading_server_errors n (responses w)))).
Proof.
  induction n as [|n IH]; intros a w d0 Ha.
  - rewrite !range_nil by (cbn; lia). reflexivity.
  - rewrite (range_cons a (a + Z.of_nat (S n))) by lia.
    replace (a + Z.of_nat (S n)) with (a + 1 + Z.of_nat n) by lia.
    rewrite for_attempts_cons. cbn [leading_server_errors].
    pose proof (body_run_is_server_error url max_retries a (Z.min (2 ^ (a - 1)) 30) w _
                  (attempt_body_run url max_retries a (Z.min (2 ^ (a - 1)) 30) w)) as Hs.
    destruct (attempt_body_run url max_retries a (Z.min (2 ^ (a - 1)) 30) w)
      as [r H1 H2|r H1 H2 H3|r H1 H2 H3|e H1]; cbn [snd] in Hs; rewrite Hs.
    1, 2, 4: rewrite range_nil by (cbn; lia); reflexivity.
    rewrite next_delay_pow by lia.
    specialize (IH (a + 1) (next_random (next_response w)) (Z.min (2 ^ (a - 1)) 30)
                   ltac:(lia)).
    replace (a + 1 - 1) with a in IH by lia.
    change (responses (next_random (next_response w)))
      with (fun k => responses w (S k)) in IH.
    destruct (for_attempts url max_retries (range (a + 1) (a + 1 + Z.of_nat n))
                (Z.min (2 ^ a) 30) (next_random (next_response w))) as [[t2 w2] res].
    unfold trace_of in *. cbn [fst snd app waits] in *.
    rewrite IH. rewrite (range_cons a) by lia.
    replace (a + Z.of_nat (S (leading_server_errors n (fun k => responses w (S k)))))
      with (a + 1 + Z.of_nat (leading_server_errors n (fun k => responses w (S k)))) by lia.
    cbn [map]. rewrite Z.sub_diag. f_equal.
    apply map_ext_in. intros m Hm. apply in_range in Hm.
    cbn [randoms next_random next_response]. do 3 f_equal.
    replace (m - a) with (Z.succ (m - (a + 1))) by lia.
    rewrite Z2Nat.inj_succ by lia. reflexivity.
Qed.

Lemma get_with_backoff_waits url max_retries w :
  waits 1 (trace_of (get_with_backoff url max_retries w)) =
    map (fun n => (Z.min (2 ^ (n - 1)) 30,
                   wait_of (Z.min (2 ^ (n - 1)) 30) (randoms w (Z.to_nat (n - 1)))))
        (range 1 (1 + Z.of_nat (leading_server_errors (Z.to_nat max_retries) (responses w)))).
Proof.
  unfold get_with_backoff.
  destruct (Z.le_gt_cases max_retries 0) as [Hle|Hgt].
  - rewrite range_nil by lia.
    replace (Z.to_nat max_retries) with 0%nat by lia. reflexivity.
  - pose proof (for_attempts_schedule url max_retries (Z.to_nat max_retries) 1 w 1
                  ltac:(lia)) as H.
    rewrite Z2Nat.id in H by lia.
    replace (1 + max_retries) with (max_retries + 1) in H by lia.
    exact H.
Qed.

(** X6. The schedule of [get_with_backoff], for every world: with [k]
    server errors at the head of the run, the function sleeps after each of
    the attempts n = 1, ..., k; at attempt n, [delay] is [min(2^(n-1), 30)],
    and the sleep lasts [min(delay * 2, 30)], that is [min(2^n, 30)], plus
    the jitter drawn with the n-th random value. From attempt 5 on the wait
    before jitter is 30 seconds. *)
Theorem get_with_backoff_schedule url max_retries w :
  let t := trace_of (get_with_backoff url max_retries w) in
  let k := leading_server_errors (Z.to_nat max_retries) (responses w) in
  waits 1 t =
    map (fun n => (Z.min (2 ^ (n - 1)) 30,
                   wait_of (Z.min (2 ^ (n - 1)) 30) (randoms w (Z.to_nat (n - 1)))))
        (range 1 (1 + Z.of_nat k)) /\
  (forall n, 1 <= n -> Z.min (Z.min (2 ^ (n - 1)) 30 * 2) 30 = Z.min (2 ^ n) 30) /\
  (forall n, 5 <= n -> Z.min (2 ^ n) 30 = 30).
Proof.
  cbv zeta. split; [|split].
  - apply get_with_backoff_waits.
  - exact next_delay_pow.
  - intros n Hn. apply Z.min_r.
    change 30 with (2 ^ 5 - 2). pose proof (Z.pow_le_mono_r 2 5 n ltac:(lia) Hn). lia.
Qed.

(** ** The sleeps of the simple retry loop *)





(** The theorems on the simple retry loop take [0 <= delay]: with a
    negative [delay], [time.sleep(delay)] raises [ValueError] at the first
    wait, which [sleep] does not model. *)








(** ** The two loops side by side *)


(** ** The cell that calls [get_with_backoff] *)

Lemma cell_lines_called t : cell_lines (map Called t) = [].
Proof. induction t as [|e t IH]; [reflexivity | exact IH]. Qed.

Lemma cell_lines_app t1 t2 : cell_lines (t1 ++ t2) = cell_lines t1 ++ cell_lines t2.
Proof.
  induction t1 as [|e t1 IH]; [reflexivity|].
  destruct e; cbn; now rewrite IH.
Qed.

(** X11. The cell that calls [get_with_backoff] with a budget of four
    attempts, for every world: no [RuntimeError] and no [HTTPError] leaves
    it, only an exception of [requests.get] does. It prints the message of
    the final error when the four calls end in server errors, the client
    error message when the first other call is a client error, and nothing
    of its own otherwise. *)
Theorem backoff_cell_outcome w :
  let k := leading_server_errors 4 (responses w) in
  snd (backoff_cell w) = simple_result 4 (responses w) /\
  cell_lines (fst (fst (backoff_cell w))) =
    if (k =? 4)%nat then ["All retries to query https://httpbin.org/status/503 failed!"%string]
    else match responses w k with
         | Responded r =>
             if is_error_status (status_code r) then [client_error_msg] else []
         | Failed _ => []
         end.
Proof.
  cbv zeta. unfold backoff_cell, get_with_backoff.
  pose proof (for_attempts_decided (HTTPBIN_ENDPOINT ++ "/status/503")%string 4
                (range 1 (4 + 1)) 1 w) as G.
  cbv zeta in G. destruct G as (_ & _ & G3).
  change (length (range 1 (4 + 1))) with 4%nat in G3.
  destruct (for_attempts (HTTPBIN_ENDPOINT ++ "/status/503")%string 4 (range 1 (4 + 1)) 1 w)
    as [[t w1] res].
  unfold result_of in G3. cbn [snd] in G3. subst res.
  unfold backoff_result, simple_result.
  destruct (_ =? _)%nat.
  - cbn. rewrite cell_lines_app, cell_lines_called. auto.
  - destruct (responses w _) as [r|e].
    + destruct (is_error_status (status_code r)); cbn.
      * rewrite cell_lines_app, cell_lines_called. auto.
      * rewrite cell_lines_called. auto.
    + cbn. rewrite cell_lines_called. auto.
Qed.

(** The run captured in the notebook: the cell ends normally and its last
    line is the message of the final error. *)
Example backoff_cell_notebook_run :
  snd (backoff_cell notebook_world) = Ok tt /\
  cell_lines (fst (fst (backoff_cell notebook_world))) =
    ["All retries to query https://httpbin.org/status/503 failed!"%string] /\
  last (fst (fst (backoff_cell notebook_world))) (PrintLine "") =
    PrintLine "All retries to query https://httpbin.org/status/503 failed!".
Proof. vm_compute. auto. Qed.

(** ** The waits grow despite the jitter *)

Lemma nth_error_range (i : nat) : forall start stop,
  nth_error (range start stop) i =
    if (i <? Z.to_nat (stop - start))%nat then Some (start + Z.of_nat i) else None.
Proof.
  induction i as [|i IH]; intros start stop.
  - destruct (Z.le_gt_cases stop start) as [H|H].
    + rewrite range_nil by lia.
      destruct (Nat.ltb_spec 0 (Z.to_nat (stop - start))); [lia | reflexivity].
    + rewrite range_cons by lia.
      destruct (Nat.ltb_spec 0 (Z.to_nat (stop - start))); [|lia].
      cbn. f_equal. lia.
  - destruct (Z.le_gt_cases stop start) as [H|H].
    + rewrite range_nil by lia.
      destruct (Nat.ltb_spec (S i) (Z.to_nat (stop - start))); [lia | reflexivity].
    + rewrite range_cons by lia. cbn [nth_error]. rewrite IH.
      destruct (Nat.ltb_spec i (Z.to_nat (stop - (start + 1))));
        destruct (Nat.ltb_spec (S i) (Z.to_nat (stop - start))); try lia; [|reflexivity].
      f_equal. lia.
Qed.

Lemma wait_of_increasing d u1 u2 :
  1 <= d <= 8 -> (0 <= u1 <= 1)%Q -> (0 <= u2 <= 1)%Q ->
  (wait_of d u1 < wait_of (Z.min (d * 2) 30) u2)%Q.
Proof.
  intros Hd Hu1 Hu2. unfold wait_of.
  pose proof (jitter_of_bounds d u1 ltac:(lia) Hu1) as Hj1.
  pose proof (jitter_of_bounds (Z.min (d * 2) 30) u2 ltac:(lia) Hu2) as Hj2.
  replace (Z.min (d * 2) 30) with (d * 2) in * by lia.
  assert (Hm : (inject_Z (23 * d + 1) <= inject_Z (10 * Z.min (d * 2 * 2) 30))%Q)
    by (rewrite <- Zle_Qle; lia).
  rewrite inject_Z_plus, !inject_Z_mult in Hm.
  rewrite inject_Z_mult in Hj2 |- *.
  change (inject_Z 2) with 2%Q in *. change (inject_Z 23) with 23%Q in Hm.
  change (inject_Z 10) with 10%Q in Hm. change (inject_Z 1) with 1%Q in Hm.
  lra.
Qed.

(** X12. As long as the waits grow, the jitter never reorders them: with
    [random.random()] in [0, 1], each of the first four sleeps of
    [get_with_backoff] is strictly shorter than the sleep that follows it. *)
Theorem get_with_backoff_waits_increase url max_retries w (i : nat) (s1 s2 : Q) :
  unit_randoms w ->
  (i < 4)%nat ->
  nth_error (sleeps (trace_of (get_with_backoff url max_retries w))) i = Some s1 ->
  nth_error (sleeps (trace_of (get_with_backoff url max_retries w))) (S i) = Some s2 ->
  (s1 < s2)%Q.
Proof.
  intros Hw Hi H1 H2.
  rewrite <- (waits_sleeps _ 1), get_with_backoff_waits, map_map, nth_error_map,
    nth_error_range in H1, H2.
  destruct (_ <? _)%nat in H2; [|discriminate].
  destruct (_ <? _)%nat in H1; [|discriminate].
  cbv beta iota delta [snd option_map] in H1, H2.
  apply (f_equal (fun o => match o with Some s => s | None => 0%Q end)) in H1, H2.
  subst s1 s2.
  replace (1 + Z.of_nat (S i) - 1) with (Z.of_nat i + 1) by lia.
  replace (1 + Z.of_nat i - 1) with (Z.of_nat i) by lia.
  rewrite <- (next_delay_pow (Z.of_nat i + 1)) by lia.
  replace (Z.of_nat i + 1 - 1) with (Z.of_nat i) by lia.
  apply wait_of_increasing; try apply Hw.
  assert (Hp : 1 <= 2 ^ Z.of_nat i <= 8).
  { destruct i as [|[|[|[|i]]]]; cbn; lia. }
  lia.
Qed.

Lemma get_with_backoff_waits_increase_witness :
  unit_randoms notebook_world /\
  (1 < 4)%nat /\
  nth_error (sleeps (trace_of (get_with_backoff "u" 4 notebook_world))) 1 =
    Some (wait_of 2 (85 # 100)) /\
  nth_error (sleeps (trace_of (get_with_backoff "u" 4 notebook_world))) 2 =
    Some (wait_of 4 (2625 # 10000)) /\
  (wait_of 2 (85 # 100) < wait_of 4 (2625 # 10000))%Q.
Proof.
  assert (H : unit_randoms notebook_world).
  { intros k. simpl. do 5 (destruct k as [|k]; [split; discriminate|]).
    destruct k; split; discriminate. }
  split; [exact H|]. split; [lia|]. split; [reflexivity|]. split; [reflexivity|].
  apply (get_with_backoff_waits_increase "u" 4 notebook_world 1
           (wait_of 2 (85 # 100)) (wait_of 4 (2625 # 10000)) H);
    [lia | reflexivity | reflexivity].
Defined.

